(** * Fetch MCP server: a shallow embedding of [build/index.js]

    The server fetches a URL with axios, optionally runs Mozilla Readability
    over the page, converts HTML to markdown with Turndown and optionally
    prepends a front-matter block of page metadata.  The two tools are
    [fetch_url] and [fetch_urls]; both go through [fetchSingleUrl].

    The third-party libraries (axios' transport, JSDOM, Readability, Turndown,
    [Date]) are collaborators: they appear as section variables, and only
    what [index.js] itself does with them is written out. *)

From Stdlib Require Import String Ascii List ZArith Bool Lia.
From Stdlib Require Import DecimalString.
Import ListNotations.
Open Scope list_scope.
Open Scope string_scope.

(** ** JavaScript values used by the code *)

(** Truthiness of a JS string: only the empty string is falsy. *)
Definition truthy (s : string) : bool :=
  match s with EmptyString => false | _ => true end.

(** Truthiness of a possibly [null]/[undefined] string. *)
Definition truthy_opt (o : option string) : bool :=
  match o with Some s => truthy s | None => false end.

(** [a || b] on possibly-null strings, as used for [getAttribute]. *)
Definition js_or (a b : option string) : option string :=
  if truthy_opt a then a else b.

(** [String.prototype.includes]. *)
Fixpoint includes (s sub : string) : bool :=
  if String.prefix sub s then true
  else match s with EmptyString => false | String _ s' => includes s' sub end.

(** White space as JavaScript has it: [String.prototype.trim] strips, and the
    regular-expression class [\s] matches, the same characters (ECMAScript
    WhiteSpace and LineTerminator).  Strings hold UTF-8 encoded text, so a
    white-space character is one of the byte sequences below. *)
Definition js_space_codes : list (list nat) :=
  [[9]; [10]; [11]; [12]; [13]; [32];
   [194; 160];                                   (* U+00A0 *)
   [225; 154; 128];                              (* U+1680 *)
   [226; 128; 128]; [226; 128; 129]; [226; 128; 130]; [226; 128; 131];
   [226; 128; 132]; [226; 128; 133]; [226; 128; 134]; [226; 128; 135];
   [226; 128; 136]; [226; 128; 137]; [226; 128; 138]; (* U+2000 .. U+200A *)
   [226; 128; 168]; [226; 128; 169];             (* U+2028, U+2029 *)
   [226; 128; 175];                              (* U+202F *)
   [226; 129; 159];                              (* U+205F *)
   [227; 128; 128];                              (* U+3000 *)
   [239; 187; 191]].                             (* U+FEFF *)

Definition js_spaces : list (list ascii) := map (map ascii_of_nat) js_space_codes.

(** The same encodings read backwards, for scanning a string from its end. *)
Definition js_spaces_rev : list (list ascii) := map (@rev ascii) js_spaces.

Fixpoint list_prefix (p l : list ascii) : bool :=
  match p, l with
  | [], _ => true
  | c :: p', c' :: l' => Ascii.eqb c c' && list_prefix p' l'
  | _ :: _, [] => false
  end.

(** The length of the white-space character [l] starts with, 0 if none. *)
Definition space_len (seqs : list (list ascii)) (l : list ascii) : nat :=
  match find (fun p => list_prefix p l) seqs with
  | Some p => length p
  | None => 0
  end.

(** [l] split into its longest white-space prefix and the rest. *)
Fixpoint split_spaces (seqs : list (list ascii)) (fuel : nat) (l : list ascii)
  : list ascii * list ascii :=
  match fuel with
  | 0 => ([], l)
  | S f =>
      match space_len seqs l with
      | 0 => ([], l)
      | k => let (ws, rest) := split_spaces seqs f (skipn k l) in (app (firstn k l) ws, rest)
      end
  end.

Definition ltrim_list (l : list ascii) : list ascii :=
  snd (split_spaces js_spaces (length l) l).

Definition rtrim_list (l : list ascii) : list ascii :=
  rev (snd (split_spaces js_spaces_rev (length l) (rev l))).

Definition trim_start (s : string) : string :=
  string_of_list_ascii (ltrim_list (list_ascii_of_string s)).

(** [String.prototype.trim]. *)
Definition trim (s : string) : string :=
  string_of_list_ascii (rtrim_list (ltrim_list (list_ascii_of_string s))).

(** A no-break space, U+00A0. *)
Definition nbsp : string := String "194" (String "160" EmptyString).

(** Number-to-string conversion used by the template literal
    [`HTTP ${status}: ...`]. *)
Definition string_of_Z (z : Z) : string :=
  (if (z <? 0)%Z then "-" else "") ++ NilZero.string_of_uint (N.to_uint (Z.abs_N z)).

(** A plain JS object used as a string-keyed map.  [Object.entries] lists
    the keys in insertion order (none of the keys the code writes is an
    array index: they are fixed words or contain ["og:"]); assigning an
    existing key keeps its position. *)
Definition obj := list (string * string).

Fixpoint obj_get (m : obj) (k : string) : option string :=
  match m with
  | [] => None
  | (k', v) :: m' => if String.eqb k k' then Some v else obj_get m' k
  end.

Fixpoint obj_set (m : obj) (k v : string) : obj :=
  match m with
  | [] => [(k, v)]
  | (k', v') :: m' =>
      if String.eqb k k' then (k', v) :: m' else (k', v') :: obj_set m' k v
  end.

(** ** Exceptions and the pipeline monad *)

(** [response.data]: what axios' default [transformResponse] makes of the
    body.  A body that [JSON.parse] accepts becomes the parsed value (a
    number, boolean, null, array or object, or a string for a JSON string
    literal); any other body stays its text.  [JOther shown] is a value that
    is not a string, [shown] being its [String(...)] conversion. *)
Inductive jsval :=
| JStr (s : string)
| JOther (shown : string).

Coercion JStr : string >-> jsval.

(** An axios response. *)
Record response := mkResponse {
  status : Z;
  statusText : string;
  data : jsval
}.

(** What can be thrown inside [fetchSingleUrl]'s [try] block. *)
Inductive exn :=
| AxiosError (resp : option response) (request_sent : bool) (message : string)
| JsError (message : string)          (** an [instanceof Error] value *)
| OtherThrow.                         (** a thrown non-[Error] value *)

Inductive res (A : Type) := Ret (a : A) | Throw (e : exn).
Arguments Ret {A} a.
Arguments Throw {A} e.

(** The world the server runs in: the URLs of the requests attempted so far,
    in order, and a clock read by [new Date()]. *)
Record world := mkWorld {
  attempts : list string;
  clock : nat
}.

(** State-and-exception monad for the body of [fetchSingleUrl]. *)
Definition M (A : Type) := world -> res A * world.

Definition ret {A} (a : A) : M A := fun w => (Ret a, w).
Definition throw {A} (e : exn) : M A := fun w => (Throw e, w).
Definition bind {A B} (m : M A) (k : A -> M B) : M B :=
  fun w => match m w with
           | (Ret a, w') => k a w'
           | (Throw e, w') => (Throw e, w')
           end.
Definition lift {A} (r : res A) : M A := fun w => (r, w).

Notation "x <- c ;; k" := (bind c (fun x => k))
  (at level 61, c at next level, right associativity).

(** [try { m } catch (error) { h(error) }]: the result can no longer throw. *)
Definition try_catch {A} (m : M A) (h : exn -> A) : world -> A * world :=
  fun w => match m w with
           | (Ret a, w') => (a, w')
           | (Throw e, w') => (h e, w')
           end.

Definition nl : string := String "010" EmptyString.

(** ** Documents, articles and outcomes *)

(** A [<meta>] element: [getAttribute] gives [null] for a missing attribute. *)
Record meta := mkMeta {
  attr_name : option string;
  attr_property : option string;
  attr_content : option string
}.

(** What the code reads from a JSDOM [document]: the text content of the
    first [<title>] element ([None] when [querySelector('title')] is null)
    and the [<meta>] elements in document order. *)
Record document := mkDocument {
  doc_title : option string;
  doc_metas : list meta
}.

(** What [Readability.parse()] returns (fields may be null). *)
Record rarticle := mkRArticle {
  ra_title : option string;
  ra_content : option string;
  ra_byline : option string
}.

(** The object [extractReadableContent] returns. *)
Record article := mkArticle {
  art_title : string;
  art_content : string;
  art_byline : option string
}.

(** [{ success: true, content }] or [{ success: false, error }]. *)
Inductive outcome :=
| Success (content : string)
| Failure (error : string).

(** The payload an MCP tool handler returns: one text item, and [isError]. *)
Record tool_result := mkToolResult {
  result_text : string;
  isError : bool
}.

(** What the network does for one request: a response (with any status),
    a request that got no response, or a request that could not be set up. *)
Inductive net_result :=
| Got (r : response)
| NoResponse (message : string)
| SetupFailed (message : string).

Section Server.

(** The transport, indexed by the number of requests attempted before. *)
Variable net : nat -> string -> Z -> net_result.
(** [new JSDOM(html, { url })] followed by [new Readability(..).parse()]. *)
Variable readability : jsval -> string -> res (option rarticle).
(** [new JSDOM(html).window.document]. *)
Variable jsdom : jsval -> res document.
(** [turndownService.turndown(html)] with the service configured in
    [index.js] (see module [Turndown] below for its rules); Turndown throws
    a [TypeError] on an input that is not a string or a DOM node. *)
Variable turndown : jsval -> res string.
(** [new Date(t).toISOString()]. *)
Variable toISOString : nat -> string.

(** [axios.get(url, { timeout, headers, maxRedirects: 5,
    validateStatus: (status) => status < 400 })]. *)
Definition validateStatus (s : Z) : bool := (s <? 400)%Z.

Definition axios_get (url : string) (timeout : Z) : M response :=
  fun w =>
    let r := net (length (attempts w)) url timeout in
    let w' := mkWorld (app (attempts w) [url]) (clock w) in
    match r with
    | Got resp =>
        if validateStatus (status resp) then (Ret resp, w')
        else (Throw (AxiosError (Some resp) true
                       ("Request failed with status code " ++ string_of_Z (status resp))), w')
    | NoResponse m => (Throw (AxiosError None true m), w')
    | SetupFailed m => (Throw (AxiosError None false m), w')
    end.

(** [new Date().toISOString()]; reading the clock advances it. *)
Definition now : M string :=
  fun w => (Ret (toISOString (clock w)), mkWorld (attempts w) (S (clock w))).

(** [extractReadableContent(html, url)]: any throw is caught and gives null. *)
Definition extractReadableContent (html : jsval) (url : string) : option article :=
  match readability html url with
  | Ret (Some a) =>
      match ra_title a, ra_content a with
      | Some t, Some c =>
          if truthy t && truthy c
          then Some (mkArticle t c (js_or (ra_byline a) None))
          else None
      | _, _ => None
      end
  | Ret None => None
  | Throw _ => None
  end.

(** Lines 99-120: the markdown body, and the metadata seeded from the article. *)
Definition convert_step (html : jsval) (url : string) (includeMetadata simplify : bool)
  : M (string * obj) :=
  if simplify then
    match extractReadableContent html url with
    | Some article =>
        markdownContent <- lift (turndown (art_content article)) ;;
        let metadata :=
          if includeMetadata then
            let m1 := obj_set [] "title" (art_title article) in
            if truthy_opt (art_byline article)
            then match art_byline article with
                 | Some b => obj_set m1 "author" b
                 | None => m1
                 end
            else m1
          else [] in
        ret (markdownContent, metadata)
    | None =>
        markdownContent <- lift (turndown html) ;;
        ret (markdownContent, [])
    end
  else
    markdownContent <- lift (turndown html) ;;
    ret (markdownContent, []).

(** The body of [metaTags.forEach] (lines 134-152). *)
Definition meta_step (metadata : obj) (tag : meta) : obj :=
  let name := js_or (attr_name tag) (attr_property tag) in
  let content := attr_content tag in
  match name, content with
  | Some n, Some c =>
      if truthy n && truthy c then
        if includes n "description" then obj_set metadata "description" c
        else if includes n "author" then obj_set metadata "author" c
        else if includes n "keywords" then obj_set metadata "keywords" c
        else if includes n "og:" then obj_set metadata n c
        else metadata
      else metadata
  | _, _ => metadata
  end.

Definition meta_loop (metadata : obj) (tags : list meta) : obj :=
  fold_left meta_step tags metadata.

(** The title fallback (lines 126-131). *)
Definition title_step (metadata : obj) (d : document) : obj :=
  if negb (truthy_opt (obj_get metadata "title")) then
    match doc_title d with
    | Some t => obj_set metadata "title" (trim t)
    | None => metadata
    end
  else metadata.

(** Lines 122-156, run when [includeMetadata] is set. *)
Definition harvest_step (html : jsval) (url : string) (metadata : obj) : M obj :=
  document <- lift (jsdom html) ;;
  let m1 := title_step metadata document in
  let m2 := meta_loop m1 (doc_metas document) in
  let m3 := obj_set m2 "url" url in
  fetchedAt <- now ;;
  ret (obj_set m3 "fetchedAt" fetchedAt).

(** The lines [`${key}: ${value}\n`] of [Object.entries(metadata)]. *)
Fixpoint entries_text (metadata : obj) : string :=
  match metadata with
  | [] => ""
  | (k, v) :: m => k ++ ": " ++ v ++ nl ++ entries_text m
  end.

(** Lines 158-166. *)
Definition format_content (includeMetadata : bool) (metadata : obj)
  (markdownContent : string) : string :=
  (if includeMetadata && Nat.ltb 0 (length metadata)
   then "---" ++ nl ++ entries_text metadata ++ "---" ++ nl ++ nl
   else "") ++ markdownContent.

(** The [catch] block (lines 169-186). *)
Definition error_message (e : exn) : string :=
  match e with
  | AxiosError (Some r) _ _ => "HTTP " ++ string_of_Z (status r) ++ ": " ++ statusText r
  | AxiosError None true _ => "No response received from server"
  | AxiosError None false m => m
  | JsError m => m
  | OtherThrow => "Failed to fetch URL"
  end.

Definition fetchSingleUrl (url : string) (includeMetadata simplify : bool)
  (timeout : Z) : world -> outcome * world :=
  try_catch
    (response <- axios_get url timeout ;;
     let html := data response in
     p <- convert_step html url includeMetadata simplify ;;
     metadata <- (if includeMetadata then harvest_step html url (snd p)
                  else ret (snd p)) ;;
     ret (Success (format_content includeMetadata metadata (fst p))))
    (fun e => Failure (error_message e)).

(** The [fetch_url] tool handler (lines 57-80). *)
Definition fetch_url (url : string) (includeMetadata simplify : bool)
  (timeout : Z) (w : world) : tool_result * world :=
  let (result, w') := fetchSingleUrl url includeMetadata simplify timeout w in
  (match result with
   | Success c =>
       if truthy c then mkToolResult c false
       else mkToolResult ("Error fetching " ++ url ++ ": " ++ "Unknown error") true
   | Failure e =>
       mkToolResult ("Error fetching " ++ url ++ ": "
                     ++ (if truthy e then e else "Unknown error")) true
   end, w').

(** The [for (const url of urls)] loop of [fetch_urls] (lines 195-212):
    [results] is the array built so far. *)
Fixpoint fetch_loop (urls : list string) (includeMetadata simplify : bool)
  (timeout : Z) (results : list (string * outcome)) (w : world)
  : list (string * outcome) * world :=
  match urls with
  | [] => (results, w)
  | url :: rest =>
      let (result, w') := fetchSingleUrl url includeMetadata simplify timeout w in
      fetch_loop rest includeMetadata simplify timeout (app results [(url, result)]) w'
  end.

(** One section of the batch report (lines 216-223). *)
Definition render_result (r : string * outcome) : string :=
  "## " ++ fst r ++ nl ++ nl ++
  match snd r with
  | Success c => c ++ nl ++ nl
  | Failure e => "**Error:** " ++ e ++ nl ++ nl
  end ++ "---" ++ nl ++ nl.

Definition render_report (results : list (string * outcome)) : string :=
  fold_left (fun output r => output ++ render_result r) results
    ("# Batch Fetch Results" ++ nl ++ nl).

(** The [fetch_urls] tool handler (lines 194-233). *)
Definition fetch_urls (urls : list string) (includeMetadata simplify : bool)
  (timeout : Z) (w : world) : tool_result * world :=
  let (results, w') := fetch_loop urls includeMetadata simplify timeout [] w in
  (mkToolResult (render_report results) false, w').

End Server.

(** ** The Turndown service configured in [index.js] (lines 15-30)

    Turndown walks the DOM after collapsing its white space.  A text node
    becomes its escaped text (its raw text under a [<code>] element).  An
    element becomes [replacementForNode(node)]: the joined conversion of its
    children is given to [rule.replacement(content, node)], where [rule] is
    chosen by [Rules.prototype.forNode]: the blank rule for blank elements,
    then the rule array (rules added with [addRule] are put in front of the
    CommonMark defaults), then the kept elements, then the default rule.
    The element's flanking white space is put outside the replacement, and
    the content is trimmed when there is any.  The trees below are the DOM
    after white-space collapsing; tag names are lower case. *)
Module Turndown.

Local Set Warnings "-register-all".
Inductive node :=
| Text (value : string)
| Elem (tag : string) (children : list node).

Record rule := mkRule {
  filter : node -> bool;
  replacement : string -> node -> string
}.

(** An array filter: [filter.indexOf(node.nodeName.toLowerCase()) > -1]. *)
Definition filter_tags (tags : list string) (n : node) : bool :=
  match n with
  | Elem t _ => existsb (String.eqb t) tags
  | Text _ => false
  end.

(** [turndownService.addRule('strikethrough', ...)]. *)
Definition strikethrough : rule :=
  mkRule (filter_tags ["del"; "s"; "strike"])
         (fun content _ => "~~" ++ content ++ "~~").

(** [turndownService.keep(['iframe', 'video', 'audio'])]. *)
Definition keep_tags : list string := ["iframe"; "video"; "audio"].

Definition bs : string := String "092" EmptyString.

Fixpoint replace_char (c : ascii) (by_ : string) (s : string) : string :=
  match s with
  | EmptyString => EmptyString
  | String c' s' =>
      if Ascii.eqb c c' then by_ ++ replace_char c by_ s'
      else String c' (replace_char c by_ s')
  end.

Fixpoint leading_count (c : ascii) (s : string) : nat :=
  match s with
  | String c' s' => if Ascii.eqb c c' then S (leading_count c s') else 0
  | EmptyString => 0
  end.

Definition is_digit (c : ascii) : bool :=
  (Nat.leb 48 (nat_of_ascii c)) && (Nat.leb (nat_of_ascii c) 57).

Fixpoint split_digits (s : string) : string * string :=
  match s with
  | String c s' =>
      if is_digit c then let (d, r) := split_digits s' in (String c d, r)
      else (EmptyString, s)
  | EmptyString => (EmptyString, EmptyString)
  end.

(** Turndown's [escape]: its list of markdown escapes, applied in order
    (the [^]-anchored ones only at the start of the text). *)
Definition markdown_escape (s0 : string) : string :=
  let s1 := replace_char "092" (bs ++ bs) s0 in
  let s2 := replace_char "*" (bs ++ "*") s1 in
  let s3 := if String.prefix "-" s2 then bs ++ s2 else s2 in
  let s4 := if String.prefix "+ " s3 then bs ++ s3 else s3 in
  let s5 := if String.prefix "=" s4 then bs ++ s4 else s4 in
  let n := leading_count "#" s5 in
  let s6 := if Nat.leb 1 n && Nat.leb n 6
                && String.prefix " " (substring n (String.length s5) s5)
            then bs ++ s5 else s5 in
  let s7 := replace_char "`" (bs ++ "`") s6 in
  let s8 := if String.prefix "~~~" s7 then bs ++ s7 else s7 in
  let s9 := replace_char "[" (bs ++ "[") s8 in
  let s10 := replace_char "]" (bs ++ "]") s9 in
  let s11 := if String.prefix ">" s10 then bs ++ s10 else s10 in
  let s12 := replace_char "_" (bs ++ "_") s11 in
  let (d, r) := split_digits s12 in
  if truthy d && String.prefix ". " r then d ++ bs ++ r else s12.

Fixpoint trailing_newlines (l : list ascii) : nat :=
  match l with
  | "010"%char :: l' => S (trailing_newlines l')
  | _ => 0
  end.

(** Turndown's [join(output, replacement)]: the newlines between two
    parts are the longer of the two runs, at most two. *)
Definition join (output replacement : string) : string :=
  let n1 := trailing_newlines (rev (list_ascii_of_string output)) in
  let n2 := trailing_newlines (list_ascii_of_string replacement) in
  let s1 := substring 0 (String.length output - n1) output in
  let s2 := substring n2 (String.length replacement - n2) replacement in
  s1 ++ substring 0 (Nat.max n1 n2) (nl ++ nl) ++ s2.

Definition is_tab_cr_lf (c : ascii) : bool :=
  Ascii.eqb c "009" || Ascii.eqb c "010" || Ascii.eqb c "013".

Fixpoint drop_while (p : ascii -> bool) (l : list ascii) : list ascii :=
  match l with
  | c :: l' => if p c then drop_while p l' else l
  | [] => []
  end.

Fixpoint take_while (p : ascii -> bool) (l : list ascii) : list ascii :=
  match l with
  | c :: l' => if p c then c :: take_while p l' else []
  | [] => []
  end.

(** The end of [postProcess]: strip leading [[\t\r\n]+] and trailing
    [[\t\r\n\s]+]. *)
Definition post_process (s : string) : string :=
  string_of_list_ascii (rtrim_list (drop_while is_tab_cr_lf (list_ascii_of_string s))).

(** [node.textContent]. *)
Fixpoint text_content (n : node) : string :=
  match n with
  | Text v => v
  | Elem _ children => String.concat "" (map text_content children)
  end.

(** The class [[ \t\r\n]] of [edgeWhitespace]. *)
Definition is_edge_ascii (c : ascii) : bool :=
  Ascii.eqb c " " || Ascii.eqb c "009" || Ascii.eqb c "013" || Ascii.eqb c "010".

(** [edgeWhitespace(string)]: [leading] is the longest white-space prefix
    (the whole string when it is all white space), [leadingAscii] its
    longest prefix in [[ \t\r\n]] and [leadingNonAscii] the rest of it;
    [trailing] is the longest white-space suffix of what follows [leading],
    [trailingAscii] its longest suffix in [[ \t\r\n]] and
    [trailingNonAscii] the part before that. *)
Record edges := mkEdges {
  leading : string;
  leadingAscii : string;
  leadingNonAscii : string;
  trailing : string;
  trailingNonAscii : string;
  trailingAscii : string
}.

Definition edge_whitespace (s : string) : edges :=
  let l := list_ascii_of_string s in
  let (lead, rest) := split_spaces js_spaces (length l) l in
  let trail_rev := fst (split_spaces js_spaces_rev (length rest) (rev rest)) in
  let lead_ascii := take_while is_edge_ascii lead in
  let trail_ascii_rev := take_while is_edge_ascii trail_rev in
  mkEdges (string_of_list_ascii lead)
          (string_of_list_ascii lead_ascii)
          (string_of_list_ascii (skipn (length lead_ascii) lead))
          (string_of_list_ascii (rev trail_rev))
          (string_of_list_ascii (rev (skipn (length trail_ascii_rev) trail_rev)))
          (string_of_list_ascii (rev trail_ascii_rev)).

(** The tests [/ $/] and [/^ /] of [isFlankedByWhitespace]. *)
Definition ends_with_space (s : string) : bool :=
  match rev (list_ascii_of_string s) with
  | " "%char :: _ => true
  | _ => false
  end.

Definition starts_with_space (s : string) : bool := String.prefix " " s.

(** Turndown's blank test: not a void or meaningful-when-blank element,
    white-space text only, and no such element inside. *)
Definition void_tags : list string :=
  ["area"; "base"; "br"; "col"; "command"; "embed"; "hr"; "img"; "input";
   "keygen"; "link"; "meta"; "param"; "source"; "track"; "wbr"].

Definition meaningful_tags : list string :=
  ["a"; "table"; "thead"; "tbody"; "tfoot"; "th"; "td"; "iframe"; "script";
   "audio"; "video"].

Fixpoint has_special (n : node) : bool :=
  match n with
  | Text _ => false
  | Elem t children =>
      existsb (String.eqb t) (void_tags ++ meaningful_tags)
      || existsb has_special children
  end.

(** [/^\s*$/i.test(s)]. *)
Definition all_ws (s : string) : bool :=
  match ltrim_list (list_ascii_of_string s) with [] => true | _ :: _ => false end.

Definition is_blank (n : node) : bool :=
  match n with
  | Text _ => false
  | Elem _ _ => negb (has_special n) && all_ws (text_content n)
  end.

Section Service.

(** The parts of the library that no claim here depends on. *)
Variable commonmark : list rule.
Variable keepReplacement : node -> string.
Variable defaultReplacement : string -> node -> string.
Variable isBlock : node -> bool.
Variable isBlank : node -> bool.
Variable escape : string -> string.

Definition blank_rule : rule :=
  mkRule (fun _ => true) (fun _ n => if isBlock n then nl ++ nl else "").

(** The rule array of the configured service. *)
Definition rules_array : list rule := strikethrough :: commonmark.

Fixpoint find_rule (rules : list rule) (n : node) : option rule :=
  match rules with
  | [] => None
  | r :: rs => if filter r n then Some r else find_rule rs n
  end.

(** [Rules.prototype.forNode]. *)
Definition for_node (n : node) : rule :=
  if isBlank n then blank_rule
  else match find_rule rules_array n with
       | Some r => r
       | None =>
           if filter_tags keep_tags n
           then mkRule (filter_tags keep_tags) (fun _ n => keepReplacement n)
           else mkRule (fun _ => true) defaultReplacement
       end.

(** [isFlankedByWhitespace(side, node)], given the sibling on that side. *)
Definition flanked (test : string -> bool) (sibling : option node) : bool :=
  match sibling with
  | Some (Text v) => test v
  | Some (Elem _ _ as e) => negb (isBlock e) && test (text_content e)
  | None => false
  end.

(** [flankingWhitespace(node)] ([preformattedCode] is off): the leading and
    the trailing white space put outside an element's replacement. *)
Definition flanking (prev next : option node) (n : node) : string * string :=
  if isBlock n then ("", "")
  else
    let e := edge_whitespace (text_content n) in
    (if truthy (leadingAscii e) && flanked ends_with_space prev
     then leadingNonAscii e else leading e,
     if truthy (trailingAscii e) && flanked starts_with_space next
     then trailingNonAscii e else trailing e).

(** [process]: [reduce] over the child nodes, each converted knowing its
    previous and next sibling. *)
Fixpoint reduce_children (conv : option node -> option node -> node -> string)
  (prev : option node) (kids : list node) (output : string) : string :=
  match kids with
  | [] => output
  | k :: ks => reduce_children conv (Some k) ks (join output (conv prev (hd_error ks) k))
  end.

(** The replacement of one node; [parent_code] is the parent's [isCode]. *)
Fixpoint convert_node (parent_code : bool) (prev next : option node) (n : node)
  {struct n} : string :=
  match n with
  | Text v => if parent_code then v else escape v
  | Elem tag children =>
      let content :=
        reduce_children (convert_node (String.eqb tag "code" || parent_code)) None
          children "" in
      let ws := flanking prev next n in
      let content := if truthy (fst ws) || truthy (snd ws) then trim content else content in
      fst ws ++ replacement (for_node n) content n ++ snd ws
  end.

Definition process (nodes : list node) : string :=
  reduce_children (convert_node false) None nodes "".

(** [turndownService.turndown(html)] on the parsed, collapsed fragment. *)
Definition turndown (nodes : list node) : string := post_process (process nodes).

End Service.

(** The service on the trees used below: no CommonMark rule fires on
    them, so the defaults are left out. *)
Definition turndown0 : list node -> string :=
  turndown [] (fun _ => "") (fun content _ => content) (fun _ => false)
    is_blank markdown_escape.

End Turndown.

(** ** The spec's side of the refinement and claim statements *)

(** The metadata-key classification as the spec words it (4.3 and 9): an
    ordered list of (predicate, destination key) rules, tried top to
    bottom. *)
Definition spec_rules : list ((string -> bool) * (string -> string)) :=
  [ ((fun k => includes k "description"), (fun _ => "description"));
    ((fun k => includes k "author"), (fun _ => "author"));
    ((fun k => includes k "keywords"), (fun _ => "keywords"));
    ((fun k => includes k "og:"), (fun k => k)) ].

Fixpoint classify (rules : list ((string -> bool) * (string -> string)))
  (k : string) : option string :=
  match rules with
  | [] => None
  | (p, d) :: rs => if p k then Some (d k) else classify rs k
  end.

(** The key candidate: the [name] attribute, or [property] when [name] is
    absent; an empty attribute counts as absent, as does an empty content
    ("skips any tag missing either"). *)
Definition key_candidate (tag : meta) : option string :=
  if truthy_opt (attr_name tag) then attr_name tag else attr_property tag.

(** Where the spec stores a tag: [Some (destination key, content)]. *)
Definition spec_entry (tag : meta) : option (string * string) :=
  match key_candidate tag, attr_content tag with
  | Some k, Some c =>
      if truthy k && truthy c
      then match classify spec_rules k with
           | Some d => Some (d, c)
           | None => None
           end
      else None
  | _, _ => None
  end.

(** The content of the last tag, in document order, stored under [k]. *)
Fixpoint last_value (k : string) (tags : list meta) : option string :=
  match tags with
  | [] => None
  | t :: ts =>
      match last_value k ts with
      | Some v => Some v
      | None =>
          match spec_entry t with
          | Some (d, c) => if String.eqb d k then Some c else None
          | None => None
          end
      end
  end.

(** The keys the pipeline can write before [url] and [fetchedAt]. *)
Definition key_ok (k : string) : bool :=
  existsb (String.eqb k) ["title"; "author"; "description"; "keywords"]
  || includes k "og:".

Definition good_keys (m : obj) : Prop := Forall (fun kv => key_ok (fst kv) = true) m.

Definition is_ret {A} (r : res A) : Prop :=
  match r with Ret _ => True | Throw _ => False end.

(** A computation that does not touch the request log. *)
Definition keeps_attempts {A} (m : M A) : Prop :=
  forall w, attempts (snd (m w)) = attempts w.

(** ** A concrete set of collaborators

    Behaviour of the libraries on one page made only of markup: Turndown
    drops the tags of elements it has no rule for and keeps their text
    (approximated by [strip_tags]) and throws its [TypeError] on a value
    that is not a string, Readability finds no article in a page without
    text, and JSDOM finds the given document. *)

Fixpoint strip_tags_from (in_tag : bool) (s : string) : string :=
  match s with
  | EmptyString => EmptyString
  | String c s' =>
      if in_tag then strip_tags_from (negb (Ascii.eqb c ">")) s'
      else if Ascii.eqb c "<" then strip_tags_from true s'
      else String c (strip_tags_from false s')
  end.

Definition strip_tags (s : string) : string := strip_tags_from false s.

Definition serve (r : response) : nat -> string -> Z -> net_result :=
  fun _ _ _ => Got r.

Definition no_article : jsval -> string -> res (option rarticle) :=
  fun _ _ => Ret None.

Definition parses_as (d : document) : jsval -> res document := fun _ => Ret d.

Definition td_strip : jsval -> res string :=
  fun v => match v with
           | JStr s => Ret (strip_tags s)
           | JOther shown =>
               Throw (JsError (shown ++ " is not a string, or an element/document/fragment node."))
           end.

Definition iso0 (t : nat) : string :=
  "2026-01-01T00:00:0" ++ string_of_Z (Z.of_nat t) ++ ".000Z".

Definition w0 : world := mkWorld [] 0.

Definition empty_page : string := "<html><head></head><body></body></html>".

Definition ex_url : string := "https://example.com/a".

(** Inputs used by the witnesses and counterexamples. *)
Definition r_not_found : response := mkResponse 404 "Not Found" "".

Definition r_empty : response := mkResponse 200 "OK" empty_page.

Definition blank_title_page : string :=
  "<html><head><title>  </title></head><body></body></html>".

Definition r_blank_title : response := mkResponse 200 "OK" blank_title_page.

Definition blank_title_doc : document := mkDocument (Some "  ") [].

Definition no_meta_doc : document := mkDocument None [].

Definition hello_page : string :=
  "<html><head><title>Hello</title><meta name='author' content='Jane'></head><body><p>Hi</p></body></html>".

Definition hello_doc : document :=
  mkDocument (Some "Hello") [mkMeta (Some "author") None (Some "Jane")].

Definition r_hello : response := mkResponse 200 "OK" hello_page.

Definition nbsp_title_doc : document := mkDocument (Some (nbsp ++ "Hi" ++ nbsp)) [].

Definition no_answer : nat -> string -> Z -> net_result :=
  fun _ _ _ => NoResponse "timeout of 30000ms exceeded".

Definition bad_url_config : nat -> string -> Z -> net_result :=
  fun _ _ _ => SetupFailed "Unsupported protocol ftp:".

Definition one_article : jsval -> string -> res (option rarticle) :=
  fun _ _ => Ret (Some (mkRArticle (Some "Post") (Some "<p>Body</p>") (Some "Ann"))).

Example strip_empty_page : strip_tags empty_page = "".
Proof. reflexivity. Qed.

Example string_of_Z_404 : string_of_Z 404 = "404".
Proof. reflexivity. Qed.

Example trim_ws : trim "  a b " = "a b".
Proof. reflexivity. Qed.

Example ex_single :
  fst (fetchSingleUrl (serve (mkResponse 200 "OK" "<p>Hi</p>")) no_article
         (parses_as (mkDocument (Some " Hello ")
                       [mkMeta (Some "author") None (Some "Jane")]))
         td_strip iso0 ex_url true true 30000 w0)
  = Success ("---" ++ nl ++ "title: Hello" ++ nl ++ "author: Jane" ++ nl
             ++ "url: " ++ ex_url ++ nl ++ "fetchedAt: 2026-01-01T00:00:00.000Z" ++ nl
             ++ "---" ++ nl ++ nl ++ "Hi").
Proof. reflexivity. Qed.

Example ex_404 :
  fst (fetchSingleUrl (serve (mkResponse 404 "Not Found" "")) no_article
         (parses_as (mkDocument None [])) td_strip iso0 ex_url false true 30000 w0)
  = Failure "HTTP 404: Not Found".
Proof. reflexivity. Qed.

Example td_del : Turndown.turndown0 [Turndown.Elem "del" [Turndown.Text "text"]] = "~~text~~".
Proof. reflexivity. Qed.

Example td_del_star :
  Turndown.turndown0 [Turndown.Elem "del" [Turndown.Text "2*3"]] = "~~2\*3~~".
Proof. reflexivity. Qed.

Example td_flanking :
  Turndown.turndown0 [Turndown.Text "a"; Turndown.Elem "s" [Turndown.Text " b"];
                      Turndown.Text " c"] = "a ~~b~~ c".
Proof. reflexivity. Qed.

Example td_code :
  Turndown.turndown0 [Turndown.Elem "code" [Turndown.Text "2*3"]] = "2*3".
Proof. reflexivity. Qed.

Example trim_nbsp : trim (nbsp ++ " Hi" ++ nbsp) = "Hi".
Proof. reflexivity. Qed.

Example ex_json_body :
  fst (fetchSingleUrl (serve (mkResponse 200 "OK" (JOther "42"))) no_article
         (parses_as no_meta_doc) td_strip iso0 ex_url false true 30000 w0)
  = Failure "42 is not a string, or an element/document/fragment node.".
Proof. reflexivity. Qed.

Example td_join :
  Turndown.turndown0 [Turndown.Text "a"; Turndown.Elem "s" [Turndown.Text "b"]] = "a~~b~~".
Proof. reflexivity. Qed.

Example meta_priority :
  meta_loop [] [mkMeta None (Some "og:description") (Some "A");
                mkMeta (Some "og:title") None (Some "T");
                mkMeta (Some "") (Some "og:title") (Some "U");
                mkMeta (Some "viewport") None (Some "w");
                mkMeta (Some "twitter:author") None (Some "")]
  = [("description", "A"); ("og:title", "U")].
Proof. reflexivity. Qed.

(** ** String lemmas *)

Lemma str_app_nil_r (s : string) : s ++ "" = s.
Proof. induction s as [|c s IH]; simpl; [|rewrite IH]; reflexivity. Qed.

Lemma str_app_assoc (a b c : string) : a ++ (b ++ c) = (a ++ b) ++ c.
Proof. induction a as [|x a IH]; simpl; [|rewrite IH]; reflexivity. Qed.

(** ** The pipeline and the world *)

Section Proofs.

Local Open Scope list_scope.

Variable net : nat -> string -> Z -> net_result.
Variable readability : jsval -> string -> res (option rarticle).
Variable jsdom : jsval -> res document.
Variable turndown : jsval -> res string.
Variable toISOString : nat -> string.

Let fSU := fetchSingleUrl net readability jsdom turndown toISOString.
Let loop := fetch_loop net readability jsdom turndown toISOString.

Lemma keeps_ret {A} (a : A) : keeps_attempts (ret a).
Proof. intros w; reflexivity. Qed.

Lemma keeps_lift {A} (r : res A) : keeps_attempts (lift r).
Proof. intros w; reflexivity. Qed.

Lemma keeps_now : keeps_attempts (now toISOString).
Proof. intros w; reflexivity. Qed.

Lemma keeps_bind {A B} (m : M A) (k : A -> M B) :
  keeps_attempts m -> (forall a, keeps_attempts (k a)) -> keeps_attempts (bind m k).
Proof.
  intros Hm Hk w; unfold bind.
  specialize (Hm w); destruct (m w) as [[a|e] w']; simpl in *; [|exact Hm].
  rewrite Hk; exact Hm.
Qed.

Create HintDb keeps.
#[local] Hint Resolve keeps_ret keeps_lift keeps_now keeps_bind : keeps.

Lemma keeps_convert html url im simp :
  keeps_attempts (convert_step readability turndown html url im simp).
Proof.
  unfold convert_step; destruct simp;
    [destruct (extractReadableContent readability html url)|]; auto with keeps.
Qed.

Lemma keeps_harvest html url m :
  keeps_attempts (harvest_step jsdom toISOString html url m).
Proof. unfold harvest_step; auto with keeps. Qed.

(** Every run of the pipeline attempts exactly one request, for its URL. *)
Lemma fetchSingleUrl_attempts url im simp t w :
  attempts (snd (fSU url im simp t w)) = attempts w ++ [url].
Proof.
  unfold fSU, fetchSingleUrl, try_catch.
  set (body := fun response : response =>
    bind (convert_step readability turndown (data response) url im simp) (fun p =>
    bind (if im then harvest_step jsdom toISOString (data response) url (snd p)
          else ret (snd p))
         (fun metadata => ret (Success (format_content im metadata (fst p)))))).
  assert (Hb : forall r, keeps_attempts (body r)).
  { intros r; unfold body; apply keeps_bind; [apply keeps_convert|intros p].
    apply keeps_bind; [destruct im; [apply keeps_harvest|apply keeps_ret]|].
    intros; apply keeps_ret. }
  unfold bind at 1, axios_get.
  destruct (net (length (attempts w)) url t) as [r|m|m];
    [destruct (validateStatus (status r))|..]; simpl; try reflexivity.
  specialize (Hb r (mkWorld (attempts w ++ [url]) (clock w))).
  fold (body r).
  destruct (body r _) as [[o|e] w']; simpl in *; exact Hb.
Qed.

(** The loop, from any accumulated prefix: the results are the prefix
    followed by one entry per URL, and the i-th URL was fetched in a world
    where exactly the URLs before it had been attempted. *)
Lemma fetch_loop_spec urls im simp t : forall acc w,
  exists rest,
    fst (loop urls im simp t acc w) = acc ++ rest /\
    map fst rest = urls /\
    attempts (snd (loop urls im simp t acc w)) = attempts w ++ urls /\
    (forall i u, nth_error urls i = Some u ->
       exists wi, nth_error rest i = Some (u, fst (fSU u im simp t wi)) /\
                  attempts wi = attempts w ++ firstn i urls).
Proof.
  induction urls as [|u us IH]; intros acc w.
  - exists []; simpl; rewrite !app_nil_r; repeat split; auto.
    intros [|i] u H; discriminate.
  - unfold loop; simpl; fold loop.
    pose proof (fetchSingleUrl_attempts u im simp t w) as Hw.
    fold fSU; destruct (fSU u im simp t w) as [r w'] eqn:E; simpl in Hw.
    destruct (IH (acc ++ [(u, r)]) w') as (rest & H1 & H2 & H3 & H4).
    exists ((u, r) :: rest); repeat split.
    + rewrite H1, <- app_assoc; reflexivity.
    + simpl; rewrite H2; reflexivity.
    + rewrite H3, Hw, <- app_assoc; reflexivity.
    + intros [|i] v Hi; simpl in Hi.
      * injection Hi as <-; exists w; simpl; rewrite E, app_nil_r; auto.
      * destruct (H4 i v Hi) as (wi & Hn & Ha); exists wi; split; [exact Hn|].
        rewrite Ha, Hw, <- app_assoc; reflexivity.
Qed.

Lemma render_report_concat results :
  render_report results
  = ("# Batch Fetch Results" ++ nl ++ nl ++ String.concat "" (map render_result results))%string.
Proof.
  unfold render_report.
  assert (G : forall pre, fold_left (fun o r => (o ++ render_result r)%string) results pre
                          = (pre ++ String.concat "" (map render_result results))%string).
  { induction results as [|r rs IH]; intros pre; simpl.
    - rewrite str_app_nil_r; reflexivity.
    - rewrite IH, <- str_app_assoc.
      destruct rs; simpl; [rewrite str_app_nil_r|]; reflexivity. }
  rewrite G, <- !str_app_assoc; reflexivity.
Qed.

(** C1: [fetch_urls] runs the pipeline once per URL, one after the other in
    input order and whatever the earlier outcomes: the request log grows by
    exactly the input list, there is one result per URL in input order, and
    the i-th result is the pipeline's outcome for the i-th URL run in the
    world where exactly the URLs before it have been attempted. *)
Theorem fetch_urls_sequential urls im simp t w :
  let results := fst (loop urls im simp t [] w) in
  map fst results = urls /\
  length results = length urls /\
  attempts (snd (loop urls im simp t [] w)) = attempts w ++ urls /\
  (forall i u, nth_error urls i = Some u ->
     exists wi, nth_error results i = Some (u, fst (fSU u im simp t wi)) /\
                attempts wi = attempts w ++ firstn i urls).
Proof.
  destruct (fetch_loop_spec urls im simp t [] w) as (rest & H1 & H2 & H3 & H4).
  simpl in H1; cbv zeta; fold loop; rewrite H1.
  repeat split; auto.
  rewrite <- H2, length_map; reflexivity.
Qed.

(** C3: a response with status >= 400 makes the pipeline return a failure
    whose message is [HTTP <status>: <statusText>]. *)
Theorem fetchSingleUrl_http_error url im simp t w r :
  net (length (attempts w)) url t = Got r ->
  (400 <= status r)%Z ->
  fst (fSU url im simp t w)
  = Failure ("HTTP " ++ string_of_Z (status r) ++ ": " ++ statusText r)%string.
Proof.
  intros Hnet Hs.
  unfold fSU, fetchSingleUrl, try_catch, bind at 1, axios_get.
  rewrite Hnet.
  assert (Hv : validateStatus (status r) = false)
    by (unfold validateStatus; apply Z.ltb_ge; exact Hs).
  rewrite Hv; reflexivity.
Qed.

(** C8: [fetch_urls] always answers with a payload that is not flagged as
    an error; its text is the heading followed by one section per URL in
    input order ([## url], then the markdown or [**Error:** message], then
    a rule). *)
Theorem fetch_urls_report urls im simp t w :
  let results := fst (loop urls im simp t [] w) in
  fst (fetch_urls net readability jsdom turndown toISOString urls im simp t w)
  = mkToolResult ("# Batch Fetch Results" ++ nl ++ nl
                  ++ String.concat "" (map render_result results))%string false /\
  map fst results = urls /\
  (forall r, In r results ->
     render_result r
     = ("## " ++ fst r ++ nl ++ nl
        ++ match snd r with
           | Success c => c ++ nl ++ nl
           | Failure e => "**Error:** " ++ e ++ nl ++ nl
           end ++ "---" ++ nl ++ nl)%string).
Proof.
  destruct (fetch_loop_spec urls im simp t [] w) as (rest & H1 & H2 & _ & _).
  cbv zeta; fold loop; split; [|split].
  - unfold fetch_urls; fold loop.
    destruct (loop urls im simp t [] w) as [results w'].
    simpl; rewrite render_report_concat; reflexivity.
  - simpl in H1; rewrite H1; exact H2.
  - intros r _; reflexivity.
Qed.

(** C10: when the pipeline succeeds with empty text, [fetch_url] answers
    with the error payload [Error fetching <url>: Unknown error]. *)
Theorem fetch_url_empty_success url im simp t w :
  fst (fSU url im simp t w) = Success "" ->
  fst (fetch_url net readability jsdom turndown toISOString url im simp t w)
  = mkToolResult ("Error fetching " ++ url ++ ": " ++ "Unknown error")%string true.
Proof.
  intros H; unfold fetch_url; fold fSU.
  destruct (fSU url im simp t w) as [o w']; simpl in H; subst o; reflexivity.
Qed.

End Proofs.

(** ** Metadata harvesting *)

Lemma obj_get_set m k v k' :
  obj_get (obj_set m k v) k' = if String.eqb k' k then Some v else obj_get m k'.
Proof.
  induction m as [|[k0 v0] m IH]; simpl.
  - reflexivity.
  - destruct (String.eqb k k0) eqn:E; simpl.
    + apply String.eqb_eq in E; subst k0.
      destruct (String.eqb k' k); reflexivity.
    + rewrite IH. destruct (String.eqb k' k0) eqn:E'; [|reflexivity].
      apply String.eqb_eq in E'; subst k0.
      destruct (String.eqb k' k) eqn:E''; [|reflexivity].
      apply String.eqb_eq in E''; subst k'.
      rewrite String.eqb_refl in E; discriminate.
Qed.

(** One step of the [forEach] stores exactly what [spec_entry] says. *)
Lemma meta_step_spec m tag k :
  obj_get (meta_step m tag) k
  = match spec_entry tag with
    | Some (d, c) => if String.eqb d k then Some c else obj_get m k
    | None => obj_get m k
    end.
Proof.
  unfold meta_step, spec_entry, key_candidate, js_or.
  destruct (if truthy_opt (attr_name tag) then attr_name tag else attr_property tag)
    as [n|]; [|reflexivity].
  destruct (attr_content tag) as [c|]; [|reflexivity].
  destruct (truthy n && truthy c); [|reflexivity].
  simpl.
  destruct (includes n "description"); [rewrite obj_get_set, String.eqb_sym; reflexivity|].
  destruct (includes n "author"); [rewrite obj_get_set, String.eqb_sym; reflexivity|].
  destruct (includes n "keywords"); [rewrite obj_get_set, String.eqb_sym; reflexivity|].
  destruct (includes n "og:"); [rewrite obj_get_set, String.eqb_sym; reflexivity|].
  reflexivity.
Qed.

(** C4: the [<meta>] loop classifies each tag with a key candidate and a
    content by the spec's ordered rules (description, author, keywords,
    then [og:] keys stored verbatim, anything else ignored), and for every
    destination key the last such tag in document order wins; keys no tag
    is classified under keep their earlier value. *)
Theorem meta_loop_last_wins m tags k :
  obj_get (meta_loop m tags) k
  = match last_value k tags with
    | Some c => Some c
    | None => obj_get m k
    end.
Proof.
  unfold meta_loop; revert m.
  induction tags as [|t ts IH]; intros m; simpl; [reflexivity|].
  rewrite IH, meta_step_spec.
  destruct (last_value k ts); [reflexivity|].
  destruct (spec_entry t) as [[d c]|]; [|reflexivity].
  destruct (String.eqb d k); reflexivity.
Qed.

(** ** Assembly of the final text *)

Section Assembly.

Local Open Scope list_scope.

Variable net : nat -> string -> Z -> net_result.
Variable readability : jsval -> string -> res (option rarticle).
Variable jsdom : jsval -> res document.
Variable turndown : jsval -> res string.
Variable toISOString : nat -> string.

Let fSU := fetchSingleUrl net readability jsdom turndown toISOString.

Lemma convert_world html url im simp w :
  snd (convert_step readability turndown html url im simp w) = w.
Proof.
  unfold convert_step, bind, lift, ret.
  destruct simp; [destruct (extractReadableContent readability html url)|];
    repeat match goal with |- context [turndown ?h] => destruct (turndown h) end;
    reflexivity.
Qed.

(** What a successful run went through. *)
Lemma fSU_success url im simp t w c :
  fst (fSU url im simp t w) = Success c ->
  exists r md seed,
    net (length (attempts w)) url t = Got r /\
    validateStatus (status r) = true /\
    fst (convert_step readability turndown (data r) url im simp w) = Ret (md, seed) /\
    ((im = false /\ c = format_content false seed md) \/
     (im = true /\ exists d, jsdom (data r) = Ret d /\
        c = format_content true
              (obj_set (obj_set (meta_loop (title_step seed d) (doc_metas d))
                                "url" url)
                       "fetchedAt" (toISOString (clock w))) md)).
Proof.
  intros H.
  unfold fSU, fetchSingleUrl, try_catch, bind at 1, axios_get in H.
  destruct (net (length (attempts w)) url t) as [r|m|m] eqn:Hnet;
    [|discriminate|discriminate].
  destruct (validateStatus (status r)) eqn:Hv; [|discriminate].
  set (w1 := mkWorld (attempts w ++ [url]) (clock w)) in H.
  unfold bind at 1 in H.
  pose proof (convert_world (data r) url im simp w1) as Hw.
  assert (Hc : forall w2, fst (convert_step readability turndown (data r) url im simp w2)
                          = fst (convert_step readability turndown (data r) url im simp w)).
  { intros w2; unfold convert_step, bind, lift, ret.
    destruct simp; [destruct (extractReadableContent readability (data r) url)|];
      repeat match goal with |- context [turndown ?h] => destruct (turndown h) end;
      reflexivity. }
  specialize (Hc w1).
  destruct (convert_step readability turndown (data r) url im simp w1)
    as [[[md seed]|e] w2] eqn:Ec; simpl in Hw, Hc; [|discriminate].
  subst w2.
  exists r, md, seed; split; [reflexivity|]; split; [exact Hv|]; split; [auto|].
  destruct im.
  - right; split; [reflexivity|].
    unfold harvest_step, bind, lift, now, ret in H.
    destruct (jsdom (data r)) as [d|e]; simpl in H; [|discriminate].
    exists d; split; [reflexivity|].
    injection H as <-; reflexivity.
  - left; split; [reflexivity|].
    unfold ret in H; simpl in H; injection H as <-; reflexivity.
Qed.

Lemma good_keys_set m k v :
  good_keys m -> key_ok k = true -> good_keys (obj_set m k v).
Proof.
  unfold good_keys; induction m as [|[k0 v0] m IH]; simpl; intros Hm Hk.
  - constructor; [exact Hk|constructor].
  - inversion Hm as [|x l Hx Hl]; subst.
    destruct (String.eqb k k0); constructor; auto.
Qed.

Lemma good_keys_meta_step m tag : good_keys m -> good_keys (meta_step m tag).
Proof.
  intros Hm; unfold meta_step.
  destruct (js_or (attr_name tag) (attr_property tag)) as [n|]; [|exact Hm].
  destruct (attr_content tag) as [c|]; [|exact Hm].
  destruct (truthy n && truthy c); [|exact Hm].
  destruct (includes n "description"); [apply good_keys_set; auto|].
  destruct (includes n "author"); [apply good_keys_set; auto|].
  destruct (includes n "keywords"); [apply good_keys_set; auto|].
  destruct (includes n "og:") eqn:Eog; [|exact Hm].
  apply good_keys_set; [exact Hm|].
  unfold key_ok; rewrite Eog, orb_true_r; reflexivity.
Qed.

Lemma good_keys_meta_loop m tags : good_keys m -> good_keys (meta_loop m tags).
Proof.
  unfold meta_loop; revert m; induction tags as [|t ts IH]; intros m Hm; simpl;
    [exact Hm|apply IH, good_keys_meta_step, Hm].
Qed.

Lemma good_keys_title_step m d : good_keys m -> good_keys (title_step m d).
Proof.
  intros Hm; unfold title_step.
  destruct (negb (truthy_opt (obj_get m "title"))); [|exact Hm].
  destruct (doc_title d); [apply good_keys_set; auto|exact Hm].
Qed.

Lemma good_keys_convert html url im simp w md seed :
  fst (convert_step readability turndown html url im simp w) = Ret (md, seed) ->
  good_keys seed.
Proof.
  unfold convert_step, bind, lift, ret.
  assert (G0 : good_keys []) by constructor.
  destruct simp; [destruct (extractReadableContent readability html url) as [a|]|];
    repeat match goal with |- context [turndown ?h] => destruct (turndown h) end;
    simpl; intros H; try discriminate; injection H as <- <-; try exact G0.
  destruct im; [|exact G0].
  destruct (truthy_opt (art_byline a)); [destruct (art_byline a)|];
    unfold good_keys; repeat constructor.
Qed.

Lemma obj_get_bad_key m k : good_keys m -> key_ok k = false -> obj_get m k = None.
Proof.
  unfold good_keys; induction m as [|[k0 v0] m IH]; simpl; intros Hm Hk; [reflexivity|].
  inversion Hm as [|x l Hx Hl]; subst; simpl in Hx.
  destruct (String.eqb k k0) eqn:E; [|auto].
  apply String.eqb_eq in E; subst k0; congruence.
Qed.

Lemma obj_set_fresh m k v : obj_get m k = None -> obj_set m k v = m ++ [(k, v)].
Proof.
  induction m as [|[k0 v0] m IH]; simpl; intros H; [reflexivity|].
  destruct (String.eqb k k0); [discriminate|rewrite IH; auto].
Qed.

Lemma entries_text_app m1 m2 :
  entries_text (m1 ++ m2) = (entries_text m1 ++ entries_text m2)%string.
Proof.
  induction m1 as [|[k v] m1 IH]; cbn [entries_text app]; [reflexivity|].
  rewrite IH, <- !str_app_assoc; reflexivity.
Qed.

(** C7: with [includeMetadata], every successful text starts with a
    front-matter block whose last two entries are [url] (the request's
    URL) and [fetchedAt] (the clock read at assembly), whatever else was
    found; the earlier entries never use these two keys. *)
Theorem front_matter_url_fetchedAt url simp t w c :
  fst (fSU url true simp t w) = Success c ->
  exists m md,
    c = ("---" ++ nl ++ entries_text (app m [("url", url); ("fetchedAt", toISOString (clock w))])
         ++ "---" ++ nl ++ nl ++ md)%string /\
    obj_get m "url" = None /\ obj_get m "fetchedAt" = None.
Proof.
  intros H.
  destruct (fSU_success url true simp t w c H)
    as (r & md & seed & _ & _ & Hc & [[Hf _]|[_ (d & _ & ->)]]); [discriminate|].
  set (m := meta_loop (title_step seed d) (doc_metas d)).
  assert (Hg : good_keys m)
    by (apply good_keys_meta_loop, good_keys_title_step, (good_keys_convert _ _ _ _ _ _ _ Hc)).
  assert (Hu : obj_get m "url" = None) by (apply obj_get_bad_key; auto).
  assert (Hf : obj_get m "fetchedAt" = None) by (apply obj_get_bad_key; auto).
  exists m, md; split; [|split; assumption].
  assert (Hf' : obj_get (obj_set m "url" url) "fetchedAt" = None)
    by (rewrite obj_get_set; simpl; exact Hf).
  rewrite (obj_set_fresh _ "fetchedAt" _ Hf'), (obj_set_fresh m "url" url Hu).
  rewrite <- app_assoc; simpl.
  unfold format_content.
  replace (Nat.ltb 0 (length (m ++ [("url", url); ("fetchedAt", toISOString (clock w))])))
    with true
    by (symmetry; apply Nat.ltb_lt; rewrite length_app; simpl; lia).
  simpl; rewrite <- !str_app_assoc; reflexivity.
Qed.

Lemma spec_entry_not_title tag d c : spec_entry tag = Some (d, c) -> String.eqb d "title" = false.
Proof.
  unfold spec_entry.
  destruct (key_candidate tag) as [k|]; [|discriminate].
  destruct (attr_content tag) as [c'|]; [|discriminate].
  destruct (truthy k && truthy c'); [|discriminate].
  simpl.
  destruct (includes k "description"); [intros H; injection H as <- _; reflexivity|].
  destruct (includes k "author"); [intros H; injection H as <- _; reflexivity|].
  destruct (includes k "keywords"); [intros H; injection H as <- _; reflexivity|].
  destruct (includes k "og:") eqn:E; [|discriminate].
  intros H; injection H as <- _.
  destruct (String.eqb k "title") eqn:Et; [|reflexivity].
  apply String.eqb_eq in Et; subst k; discriminate.
Qed.

(** The [<meta>] loop never writes [title]. *)
Lemma meta_loop_title m tags : obj_get (meta_loop m tags) "title" = obj_get m "title".
Proof.
  unfold meta_loop; revert m; induction tags as [|t ts IH]; intros m; simpl; [reflexivity|].
  rewrite IH, meta_step_spec.
  destruct (spec_entry t) as [[d c]|] eqn:E; [|reflexivity].
  rewrite (spec_entry_not_title _ _ _ E); reflexivity.
Qed.

Lemma obj_get_in m k v : obj_get m k = Some v -> In (k, v) m.
Proof.
  induction m as [|[k0 v0] m IH]; simpl; [discriminate|].
  destruct (String.eqb k k0) eqn:E; intros H; [|right; auto].
  apply String.eqb_eq in E; subst k0; injection H as <-; left; reflexivity.
Qed.

Lemma validate_below s : (s < 400)%Z -> validateStatus s = true.
Proof. intros H; unfold validateStatus; apply Z.ltb_lt; exact H. Qed.

(** C5 (defect): a page whose [<title>] text is empty or blank gets a
    [title] entry with the empty value in its metadata, printed as the
    front-matter line [title: ]. *)
Theorem blank_title_entry url t w r d ttl md :
  net (length (attempts w)) url t = Got r -> (status r < 400)%Z ->
  turndown (data r) = Ret md -> jsdom (data r) = Ret d ->
  doc_title d = Some ttl -> trim ttl = "" ->
  exists m, fst (fSU url true false t w) = Success (format_content true m md) /\
            In ("title", "") m.
Proof.
  intros Hnet Hs Htd Hjs Hti Htr.
  unfold fSU, fetchSingleUrl, try_catch, bind, axios_get, lift, ret,
    convert_step, harvest_step, now.
  rewrite Hnet, (validate_below _ Hs), Htd, Hjs; cbn beta iota.
  eexists; split; [reflexivity|].
  apply obj_get_in.
  rewrite !obj_get_set; simpl.
  rewrite meta_loop_title; unfold title_step; simpl.
  rewrite Hti, Htr; reflexivity.
Qed.

Lemma obj_set_nonempty m k v : 0 < length (obj_set m k v).
Proof. destruct m as [|[k0 v0] m]; simpl; [|destruct (String.eqb k k0)]; simpl; lia. Qed.

(** C2 (amended): a response below 400 whose body, as axios delivers it,
    parses and converts without a fault gives a success; its text is
    non-empty when metadata is requested, and otherwise it is exactly the
    converted markdown (of the article, or of the full HTML), which may be
    empty.  The hypotheses are about this fetch's body only: the
    conversion the pipeline runs on it returns, and so does the parse
    when metadata is requested. *)
Theorem success_below_400 url im simp t w r :
  net (length (attempts w)) url t = Got r -> (status r < 400)%Z ->
  (simp = false \/ extractReadableContent readability (data r) url = None ->
     is_ret (turndown (data r))) ->
  (forall a, simp = true -> extractReadableContent readability (data r) url = Some a ->
     is_ret (turndown (art_content a))) ->
  (im = true -> is_ret (jsdom (data r))) ->
  exists c, fst (fSU url im simp t w) = Success c /\
    (im = true -> c <> "") /\
    (im = false ->
       turndown (data r) = Ret c \/
       exists a, extractReadableContent readability (data r) url = Some a /\
                 turndown (art_content a) = Ret c).
Proof.
  intros Hnet Hs Hfull Hart Hjs.
  assert (Hconv : exists p, forall w',
             convert_step readability turndown (data r) url im simp w' = (Ret p, w')).
  { unfold convert_step, bind, lift, ret.
    destruct simp; [destruct (extractReadableContent readability (data r) url) as [a|] eqn:Ex|].
    - specialize (Hart a eq_refl eq_refl).
      destruct (turndown (art_content a)); [|destruct Hart]; eexists; reflexivity.
    - specialize (Hfull (or_intror eq_refl)).
      destruct (turndown (data r)); [|destruct Hfull]; eexists; reflexivity.
    - specialize (Hfull (or_introl eq_refl)).
      destruct (turndown (data r)); [|destruct Hfull]; eexists; reflexivity. }
  assert (Hok : exists c, fst (fSU url im simp t w) = Success c).
  { destruct Hconv as [p Hc].
    unfold fSU, fetchSingleUrl, try_catch, axios_get; unfold bind at 1 2.
    rewrite Hnet, (validate_below _ Hs); cbn beta iota zeta.
    rewrite Hc; unfold bind.
    destruct im.
    - specialize (Hjs eq_refl).
      unfold harvest_step, bind, lift, now, ret.
      destruct (jsdom (data r)); [|destruct Hjs]; eexists; reflexivity.
    - eexists; reflexivity. }
  destruct Hok as [c Hc]; exists c; split; [exact Hc|].
  clear Hconv Hfull Hart Hjs.
  destruct (fSU_success url im simp t w c Hc)
    as (r' & md & seed & Hnet' & _ & Hconv' & [[-> ->]|[-> (d & _ & ->)]]);
    rewrite Hnet in Hnet'; injection Hnet' as <-; split; intros Him; try discriminate.
  - unfold format_content; simpl.
    unfold convert_step, bind, lift, ret in Hconv'.
    destruct simp; [destruct (extractReadableContent readability (data r) url) as [a|]|];
      destruct (turndown _) eqn:E; simpl in Hconv'; try discriminate;
      injection Hconv' as -> _; eauto.
  - unfold format_content.
    rewrite (proj2 (Nat.ltb_lt _ _) (obj_set_nonempty _ _ _)); simpl; discriminate.
Qed.

(** C6 (amended): with [simplify] and no extractable article the pipeline
    gives exactly the result of the same request without [simplify]: the
    body is the conversion of the full HTML, a conversion fault becomes a
    failure outcome, and nothing is thrown. *)
Theorem fallback_full_html url im t w r :
  net (length (attempts w)) url t = Got r -> (status r < 400)%Z ->
  extractReadableContent readability (data r) url = None ->
  fSU url im true t w = fSU url im false t w /\
  (forall md, turndown (data r) = Ret md -> im = false ->
     fst (fSU url im true t w) = Success md) /\
  (forall e, turndown (data r) = Throw e ->
     fst (fSU url im true t w) = Failure (error_message e)).
Proof.
  intros Hnet Hs Hext.
  assert (Hconv : convert_step readability turndown (data r) url im true
                  = convert_step readability turndown (data r) url im false)
    by (unfold convert_step; rewrite Hext; reflexivity).
  split; [|split].
  - unfold fSU, fetchSingleUrl, try_catch, bind, axios_get.
    rewrite Hnet, (validate_below _ Hs); cbn beta iota zeta.
    rewrite Hconv; reflexivity.
  - intros md Htd ->.
    unfold fSU, fetchSingleUrl, try_catch, bind, axios_get, lift, ret, convert_step.
    rewrite Hnet, (validate_below _ Hs), Hext, Htd; reflexivity.
  - intros e Htd.
    unfold fSU, fetchSingleUrl, try_catch, bind, axios_get, lift, ret, convert_step.
    rewrite Hnet, (validate_below _ Hs), Hext, Htd; reflexivity.
Qed.

End Assembly.

(** ** White space at the edges of an element's text *)

Lemma split_spaces_app seqs fuel l :
  app (fst (split_spaces seqs fuel l)) (snd (split_spaces seqs fuel l)) = l.
Proof.
  revert l; induction fuel as [|f IH]; intros l; [reflexivity|].
  cbn [split_spaces].
  destruct (space_len seqs l) as [|k]; [reflexivity|].
  specialize (IH (skipn (S k) l)).
  destruct (split_spaces seqs f (skipn (S k) l)) as [ws rest]; cbn [fst snd] in *.
  rewrite <- app_assoc, IH, firstn_skipn; reflexivity.
Qed.

(** A string that [trim] leaves alone has no edge white space. *)
Lemma edge_whitespace_trimmed t :
  trim t = t -> Turndown.edge_whitespace t = Turndown.mkEdges "" "" "" "" "" "".
Proof.
  intros H.
  assert (HL : rtrim_list (ltrim_list (list_ascii_of_string t)) = list_ascii_of_string t).
  { unfold trim in H; apply (f_equal list_ascii_of_string) in H.
    rewrite list_ascii_of_string_of_list_ascii in H; exact H. }
  unfold Turndown.edge_whitespace.
  remember (list_ascii_of_string t) as L eqn:EL; clear EL H.
  unfold ltrim_list, rtrim_list in HL.
  pose proof (split_spaces_app js_spaces (length L) L) as A.
  destruct (split_spaces js_spaces (length L) L) as [lead rest]; simpl in *.
  pose proof (split_spaces_app js_spaces_rev (length rest) (rev rest)) as B.
  destruct (split_spaces js_spaces_rev (length rest) (rev rest)) as [tr rr]; simpl in *.
  assert (Hlen : length lead = 0 /\ length tr = 0).
  { apply (f_equal (@length ascii)) in A, B, HL.
    rewrite length_rev in HL; rewrite length_app in A, B; rewrite length_rev in B. lia. }
  destruct lead, tr; simpl in Hlen; try lia; reflexivity.
Qed.

Lemma flanking_trimmed isBlock prev next n :
  trim (Turndown.text_content n) = Turndown.text_content n ->
  Turndown.flanking isBlock prev next n = ("", "").
Proof.
  intros H; unfold Turndown.flanking.
  destruct (isBlock n); [reflexivity|].
  rewrite (edge_whitespace_trimmed _ H); reflexivity.
Qed.

(** ** The strikethrough rule *)

Section Strikethrough.

Variable commonmark : list Turndown.rule.
Variable keepReplacement : Turndown.node -> string.
Variable defaultReplacement : string -> Turndown.node -> string.
Variable isBlock isBlank : Turndown.node -> bool.
Variable escape : string -> string.

Let convert := Turndown.convert_node commonmark keepReplacement defaultReplacement
                 isBlock isBlank escape.

(** C9 (amended): a [<del>], [<s>] or [<strike>] element that is not blank
    is rendered by the strikethrough rule as [~~c~~] with the element's
    flanking white space outside the markers: [c] is the joined conversion
    of its children (for a text child, its markdown-escaped text), trimmed
    when there is flanking white space.  An element whose text has no
    leading or trailing white space is rendered exactly [~~c~~]; in
    particular [<del>text</del>] converts to [~~text~~]. *)
Theorem strikethrough_rendering tag children parent_code prev next :
  In tag ["del"; "s"; "strike"] ->
  isBlank (Turndown.Elem tag children) = false ->
  let n := Turndown.Elem tag children in
  let ws := Turndown.flanking isBlock prev next n in
  let c := Turndown.reduce_children (convert parent_code) None children "" in
  convert parent_code prev next n
  = (fst ws ++ ("~~" ++ (if truthy (fst ws) || truthy (snd ws) then trim c else c) ++ "~~")
     ++ snd ws)%string /\
  (trim (Turndown.text_content n) = Turndown.text_content n ->
   convert parent_code prev next n = ("~~" ++ c ++ "~~")%string) /\
  Turndown.turndown0 [Turndown.Elem "del" [Turndown.Text "text"]] = "~~text~~".
Proof.
  intros Hin Hb n ws c.
  assert (Heq : convert parent_code prev next n
                = (fst ws ++ ("~~" ++ (if truthy (fst ws) || truthy (snd ws) then trim c else c)
                   ++ "~~") ++ snd ws)%string).
  { assert (Hr : Turndown.for_node commonmark keepReplacement defaultReplacement isBlock isBlank
                   (Turndown.Elem tag children) = Turndown.strikethrough).
    { unfold Turndown.for_node, Turndown.rules_array; rewrite Hb; cbn [Turndown.find_rule].
      destruct Hin as [<-|[<-|[<-|[]]]]; reflexivity. }
    assert (Hc : String.eqb tag "code" = false)
      by (destruct Hin as [<-|[<-|[<-|[]]]]; reflexivity).
    unfold convert, n, ws, c; cbn [Turndown.convert_node].
    rewrite Hr, Hc; reflexivity. }
  split; [exact Heq|split; [|reflexivity]].
  intros Htr; rewrite Heq; unfold ws; rewrite (flanking_trimmed _ _ _ _ Htr).
  simpl; rewrite str_app_nil_r; reflexivity.
Qed.

End Strikethrough.

(** ** Witnesses and counterexamples *)

Lemma fetchSingleUrl_http_error_witness :
  serve r_not_found 0 ex_url 30000 = Got r_not_found /\
  (400 <= status r_not_found)%Z /\
  fst (fetchSingleUrl (serve r_not_found) no_article (parses_as no_meta_doc) td_strip
         iso0 ex_url false true 30000 w0)
  = Failure ("HTTP " ++ string_of_Z (status r_not_found) ++ ": " ++ statusText r_not_found).
Proof.
  split; [reflexivity|split; [simpl; lia|]].
  apply fetchSingleUrl_http_error; [reflexivity|simpl; lia].
Defined.

Lemma fetch_url_empty_success_witness :
  fst (fetchSingleUrl (serve r_empty) no_article (parses_as no_meta_doc) td_strip
         iso0 ex_url false false 30000 w0) = Success "" /\
  fst (fetch_url (serve r_empty) no_article (parses_as no_meta_doc) td_strip
         iso0 ex_url false false 30000 w0)
  = mkToolResult ("Error fetching " ++ ex_url ++ ": " ++ "Unknown error") true.
Proof.
  split; [reflexivity|].
  apply fetch_url_empty_success; reflexivity.
Defined.

Lemma front_matter_url_fetchedAt_witness :
  exists c,
    fst (fetchSingleUrl (serve r_hello) no_article (parses_as hello_doc) td_strip
           iso0 ex_url true false 30000 w0) = Success c /\
    exists m md,
      c = ("---" ++ nl ++ entries_text (app m [("url", ex_url); ("fetchedAt", iso0 (clock w0))])
           ++ "---" ++ nl ++ nl ++ md) /\
      obj_get m "url" = None /\ obj_get m "fetchedAt" = None.
Proof.
  eexists; split; [reflexivity|].
  apply (front_matter_url_fetchedAt (serve r_hello) no_article (parses_as hello_doc)
           td_strip iso0 ex_url false 30000 w0); reflexivity.
Defined.

Lemma blank_title_entry_witness :
  serve r_blank_title 0 ex_url 30000 = Got r_blank_title /\
  doc_title blank_title_doc = Some "  " /\ trim "  " = "" /\
  exists m,
    fst (fetchSingleUrl (serve r_blank_title) no_article (parses_as blank_title_doc)
           td_strip iso0 ex_url true false 30000 w0)
    = Success (format_content true m (strip_tags blank_title_page)) /\
    In ("title", "") m.
Proof.
  split; [reflexivity|split; [reflexivity|split; [reflexivity|]]].
  apply (blank_title_entry (serve r_blank_title) no_article (parses_as blank_title_doc)
           td_strip iso0 ex_url 30000 w0 r_blank_title blank_title_doc "  ");
    try reflexivity; simpl; lia.
Defined.

Lemma success_below_400_witness :
  exists c,
    fst (fetchSingleUrl (serve r_hello) no_article (parses_as hello_doc) td_strip
           iso0 ex_url true false 30000 w0) = Success c /\
    (true = true -> c <> "") /\
    (true = false ->
       td_strip (data r_hello) = Ret c \/
       exists a, extractReadableContent no_article (data r_hello) ex_url = Some a /\
                 td_strip (art_content a) = Ret c).
Proof.
  apply success_below_400 with (r := r_hello);
    [reflexivity|simpl; lia|intros; exact I|intros a Hf; discriminate|intros; exact I].
Defined.

Lemma fallback_full_html_witness :
  extractReadableContent no_article (data r_hello) ex_url = None /\
  fetchSingleUrl (serve r_hello) no_article (parses_as hello_doc) td_strip
    iso0 ex_url true true 30000 w0
  = fetchSingleUrl (serve r_hello) no_article (parses_as hello_doc) td_strip
      iso0 ex_url true false 30000 w0.
Proof.
  split; [reflexivity|].
  apply (fallback_full_html (serve r_hello) no_article (parses_as hello_doc) td_strip
           iso0 ex_url true 30000 w0 r_hello); [reflexivity|simpl; lia|reflexivity].
Defined.

Lemma strikethrough_rendering_witness :
  Turndown.is_blank (Turndown.Elem "s" [Turndown.Text "old"]) = false /\
  Turndown.convert_node [] (fun _ => "") (fun content _ => content) (fun _ => false)
    Turndown.is_blank Turndown.markdown_escape false None None
    (Turndown.Elem "s" [Turndown.Text "old"])
  = "~~old~~".
Proof.
  split; [reflexivity|].
  exact (eq_trans
    (proj1 (proj2 (strikethrough_rendering [] (fun _ => "") (fun content _ => content)
       (fun _ => false) Turndown.is_blank Turndown.markdown_escape "s"
       [Turndown.Text "old"] false None None (or_intror (or_introl eq_refl)) eq_refl))
       eq_refl)
    eq_refl).
Defined.

(** C2: a 200 response with an empty page converts to empty markdown, and
    without metadata the success text is empty. *)
Lemma success_below_400_counterexample :
  serve r_empty 0 ex_url 30000 = Got r_empty /\ (status r_empty < 400)%Z /\
  is_ret (td_strip (data r_empty)) /\
  fst (fetchSingleUrl (serve r_empty) no_article (parses_as no_meta_doc) td_strip
         iso0 ex_url false false 30000 w0) = Success "".
Proof.
  split; [reflexivity|split; [simpl; lia|split; [exact I|reflexivity]]].
Defined.

(** C6: the same page with [simplify] and no article: the fallback output
    is empty. *)
Lemma fallback_counterexample :
  serve r_empty 0 ex_url 30000 = Got r_empty /\ (status r_empty < 400)%Z /\
  extractReadableContent no_article (data r_empty) ex_url = None /\
  fst (fetchSingleUrl (serve r_empty) no_article (parses_as no_meta_doc) td_strip
         iso0 ex_url false true 30000 w0) = Success "".
Proof.
  split; [reflexivity|split; [simpl; lia|split; reflexivity]].
Defined.

(** C9: the text of a [<del>] element is markdown-escaped, so [2*3] is not
    rendered as [~~2*3~~]; and white space at the edge of its text is put
    outside the markers, so [a <del>b </del>c] gives [a ~~b~~ c], not
    [~~b ~~]. *)
Lemma strikethrough_counterexample :
  Turndown.turndown0 [Turndown.Elem "del" [Turndown.Text "2*3"]] = "~~2\*3~~" /\
  includes (Turndown.turndown0 [Turndown.Elem "del" [Turndown.Text "2*3"]])
           "~~2*3~~" = false /\
  Turndown.turndown0 [Turndown.Text "a "; Turndown.Elem "del" [Turndown.Text "b "];
                      Turndown.Text "c"] = "a ~~b~~ c" /\
  includes (Turndown.turndown0 [Turndown.Text "a "; Turndown.Elem "del" [Turndown.Text "b "];
                                Turndown.Text "c"]) "~~b ~~" = false.
Proof. repeat split; reflexivity. Defined.

(** ** Further properties of the handlers and the pipeline *)

Section Further.

Local Open Scope list_scope.

Variable net : nat -> string -> Z -> net_result.
Variable readability : jsval -> string -> res (option rarticle).
Variable jsdom : jsval -> res document.
Variable turndown : jsval -> res string.
Variable toISOString : nat -> string.

Let fSU := fetchSingleUrl net readability jsdom turndown toISOString.
Let fURL := fetch_url net readability jsdom turndown toISOString.
Let loop := fetch_loop net readability jsdom turndown toISOString.

(** [fetch_url]'s payload for each outcome of the pipeline. *)
Theorem fetch_url_payload url im simp t w :
  fst (fURL url im simp t w)
  = match fst (fSU url im simp t w) with
    | Success c =>
        if truthy c then mkToolResult c false
        else mkToolResult ("Error fetching " ++ url ++ ": Unknown error")%string true
    | Failure e =>
        mkToolResult ("Error fetching " ++ url ++ ": "
                      ++ (if truthy e then e else "Unknown error"))%string true
    end.
Proof.
  unfold fURL, fetch_url; fold fSU.
  destruct (fSU url im simp t w) as [[c|e] w']; reflexivity.
Qed.

Lemma http_error_outcome url im simp t w r :
  net (length (attempts w)) url t = Got r -> (400 <= status r)%Z ->
  fst (fSU url im simp t w)
  = Failure ("HTTP " ++ string_of_Z (status r) ++ ": " ++ statusText r)%string.
Proof.
  intros Hnet Hs.
  unfold fSU, fetchSingleUrl, try_catch, bind at 1, axios_get.
  rewrite Hnet.
  replace (validateStatus (status r)) with false
    by (symmetry; unfold validateStatus; apply Z.ltb_ge; exact Hs).
  reflexivity.
Qed.

(** An HTTP error reaches the caller of [fetch_url] as an error-flagged
    [Error fetching <url>: HTTP <status>: <statusText>]. *)
Theorem fetch_url_http_error url im simp t w r :
  net (length (attempts w)) url t = Got r -> (400 <= status r)%Z ->
  fst (fURL url im simp t w)
  = mkToolResult ("Error fetching " ++ url ++ ": HTTP " ++ string_of_Z (status r)
                  ++ ": " ++ statusText r)%string true.
Proof.
  intros Hnet Hs.
  pose proof (http_error_outcome url im simp t w r Hnet Hs) as H.
  unfold fURL, fetch_url; fold fSU.
  destruct (fSU url im simp t w) as [o w']; simpl in H; subst o; reflexivity.
Qed.

(** A request that got no response fails with the fixed message; one that
    could not be sent fails with the transport's own message. *)
Theorem fetchSingleUrl_transport_errors url im simp t w m :
  (net (length (attempts w)) url t = NoResponse m ->
   fst (fSU url im simp t w) = Failure "No response received from server") /\
  (net (length (attempts w)) url t = SetupFailed m ->
   fst (fSU url im simp t w) = Failure m).
Proof.
  split; intros Hnet;
    unfold fSU, fetchSingleUrl, try_catch, bind at 1, axios_get; rewrite Hnet;
    reflexivity.
Qed.

(** Every run makes exactly one request, for its URL, and reads the clock
    at most once, never when metadata is not requested. *)
Theorem fetchSingleUrl_one_request url im simp t w :
  let w' := snd (fSU url im simp t w) in
  attempts w' = attempts w ++ [url] /\
  (clock w' = clock w \/ clock w' = S (clock w)) /\
  (im = false -> clock w' = clock w).
Proof.
  cbv zeta; split; [apply fetchSingleUrl_attempts|].
  unfold fSU, fetchSingleUrl, try_catch, bind, axios_get, lift, ret,
    convert_step, harvest_step, now.
  destruct (net (length (attempts w)) url t) as [r|m|m];
    [destruct (validateStatus (status r))|..]; cbn beta iota.
  all: try (split; [left|]; reflexivity).
  destruct simp; [destruct (extractReadableContent readability (data r) url)|];
    repeat match goal with |- context [turndown ?h] => destruct (turndown h) end;
    cbn beta iota.
  all: try (split; [left|]; reflexivity).
  all: destruct im; cbn beta iota; try (split; [left|]; reflexivity).
  all: destruct (jsdom (data r)); cbn beta iota; try (split; [left|]; reflexivity).
  all: split; [right; reflexivity|discriminate].
Qed.

(** [extractReadableContent] only returns articles with a non-empty title
    and content, and a byline that is absent or non-empty. *)
Theorem extract_article_shape html url a :
  extractReadableContent readability html url = Some a ->
  truthy (art_title a) = true /\ truthy (art_content a) = true /\
  (art_byline a = None \/ exists b, art_byline a = Some b /\ truthy b = true).
Proof.
  unfold extractReadableContent.
  destruct (readability html url) as [[ra|]|e]; try discriminate.
  destruct (ra_title ra) as [ti|], (ra_content ra) as [co|]; try discriminate.
  destruct (truthy ti) eqn:Et, (truthy co) eqn:Ec; simpl; try discriminate.
  intros H; injection H as <-; simpl; split; [exact Et|split; [exact Ec|]].
  unfold js_or; destruct (ra_byline ra) as [b|]; simpl; [|left; reflexivity].
  destruct (truthy b) eqn:Eb; [right; exists b; auto|left; reflexivity].
Qed.

Lemma extract_title_byline html url a :
  extractReadableContent readability html url = Some a ->
  truthy (art_title a) = true /\
  (truthy_opt (art_byline a) = false -> art_byline a = None).
Proof.
  unfold extractReadableContent.
  destruct (readability html url) as [[ra|]|e]; try discriminate.
  destruct (ra_title ra) as [ti|], (ra_content ra) as [co|]; try discriminate.
  destruct (truthy ti) eqn:Et, (truthy co) eqn:Ec; simpl; try discriminate.
  intros H; injection H as <-; simpl; split; [exact Et|].
  unfold js_or; destruct (truthy_opt (ra_byline ra)) eqn:Eb; [congruence|reflexivity].
Qed.

Lemma meta_loop_lookup m tags k :
  obj_get (meta_loop m tags) k
  = match last_value k tags with Some c => Some c | None => obj_get m k end.
Proof.
  unfold meta_loop; revert m.
  induction tags as [|tg ts IH]; intros m; simpl; [reflexivity|].
  rewrite IH, meta_step_spec.
  destruct (last_value k ts); [reflexivity|].
  destruct (spec_entry tg) as [[d c]|]; [|reflexivity].
  destruct (String.eqb d k); reflexivity.
Qed.

(** With [simplify] and an extracted article, the metadata title is the
    article's title (the page's [<title>] and [<meta>] tags never replace
    it), and the author is the last author [<meta>] tag's content, or else
    the article's byline. *)
Theorem article_metadata_seed url t w r a md d :
  net (length (attempts w)) url t = Got r -> (status r < 400)%Z ->
  extractReadableContent readability (data r) url = Some a ->
  turndown (art_content a) = Ret md -> jsdom (data r) = Ret d ->
  exists m,
    fst (fSU url true true t w) = Success (format_content true m md) /\
    obj_get m "title" = Some (art_title a) /\
    obj_get m "author" = match last_value "author" (doc_metas d) with
                         | Some v => Some v
                         | None => art_byline a
                         end.
Proof.
  intros Hnet Hs Hex Htd Hjs.
  destruct (extract_title_byline _ _ _ Hex) as [Ht Hb].
  unfold fSU, fetchSingleUrl, try_catch, bind, axios_get, lift, ret,
    convert_step, harvest_step, now.
  rewrite Hnet, (validate_below _ Hs), Hex, Htd, Hjs; cbn beta iota.
  eexists; split; [reflexivity|].
  rewrite !obj_get_set; simpl; split.
  - rewrite meta_loop_title; unfold title_step.
    destruct (truthy_opt (art_byline a)); [destruct (art_byline a)|]; simpl;
      rewrite Ht; reflexivity.
  - rewrite meta_loop_lookup.
    destruct (last_value "author" (doc_metas d)); [reflexivity|].
    unfold title_step.
    destruct (truthy_opt (art_byline a)) eqn:Eb.
    + destruct (art_byline a) as [b|]; simpl; rewrite Ht; simpl; reflexivity.
    + rewrite (Hb eq_refl); simpl; rewrite Ht; reflexivity.
Qed.

Lemma meta_step_head v m tag :
  exists m', meta_step (("title", v) :: m) tag = ("title", v) :: m'.
Proof.
  unfold meta_step.
  destruct (js_or (attr_name tag) (attr_property tag)) as [n|]; [|eauto].
  destruct (attr_content tag) as [c|]; [|eauto].
  destruct (truthy n && truthy c); [|eauto].
  destruct (includes n "description"); [simpl; eauto|].
  destruct (includes n "author"); [simpl; eauto|].
  destruct (includes n "keywords"); [simpl; eauto|].
  destruct (includes n "og:") eqn:Eog; [|eauto].
  simpl; destruct (String.eqb n "title") eqn:E; [|eauto].
  apply String.eqb_eq in E; subst n; discriminate.
Qed.

Lemma meta_loop_head v m tags :
  exists m', meta_loop (("title", v) :: m) tags = ("title", v) :: m'.
Proof.
  unfold meta_loop; revert m; induction tags as [|tg ts IH]; intros m; simpl; [eauto|].
  destruct (meta_step_head v m tg) as [m' ->]; apply IH.
Qed.

(** Without an article, a page with a [<title>] element gets a front
    matter whose first line is [title: <trimmed title text>]. *)
Theorem title_first_line url simp t w r d ttl md :
  net (length (attempts w)) url t = Got r -> (status r < 400)%Z ->
  (simp = false \/ extractReadableContent readability (data r) url = None) ->
  turndown (data r) = Ret md -> jsdom (data r) = Ret d ->
  doc_title d = Some ttl ->
  exists rest,
    fst (fSU url true simp t w)
    = Success ("---" ++ nl ++ "title: " ++ trim ttl ++ nl ++ rest)%string.
Proof.
  intros Hnet Hs Hsimp Htd Hjs Hti.
  assert (Hc : convert_step readability turndown (data r) url true simp
               = convert_step readability turndown (data r) url true false)
    by (destruct Hsimp as [->|He]; [reflexivity|destruct simp; [|reflexivity];
                                   unfold convert_step; rewrite He; reflexivity]).
  unfold fSU, fetchSingleUrl, try_catch, bind at 1, axios_get.
  rewrite Hnet, (validate_below _ Hs); cbn beta iota zeta.
  unfold bind at 1; rewrite Hc.
  unfold convert_step, bind, lift, ret, harvest_step, now.
  rewrite Htd, Hjs; cbn beta iota.
  unfold title_step; simpl; rewrite Hti.
  destruct (meta_loop_head (trim ttl) [] (doc_metas d)) as [m' ->].
  unfold format_content, entries_text; fold entries_text; simpl.
  rewrite <- !str_app_assoc; eexists; reflexivity.
Qed.

(** In a batch, a URL whose request is answered with status >= 400 gets
    the section [## <url>], [**Error:** HTTP <status>: <statusText>], and
    the later URLs are still fetched. *)
Theorem batch_http_error urls im simp t w i u r :
  nth_error urls i = Some u ->
  net (length (attempts w) + i) u t = Got r -> (400 <= status r)%Z ->
  let res := loop urls im simp t [] w in
  nth_error (fst res) i
  = Some (u, Failure ("HTTP " ++ string_of_Z (status r) ++ ": " ++ statusText r)%string) /\
  render_result (u, Failure ("HTTP " ++ string_of_Z (status r) ++ ": " ++ statusText r)%string)
  = ("## " ++ u ++ nl ++ nl ++ "**Error:** HTTP " ++ string_of_Z (status r) ++ ": "
     ++ statusText r ++ nl ++ nl ++ "---" ++ nl ++ nl)%string /\
  attempts (snd res) = attempts w ++ urls.
Proof.
  intros Hi Hnet Hs; cbv zeta.
  destruct (fetch_loop_spec net readability jsdom turndown toISOString urls im simp t [] w)
    as (rest & H1 & _ & H3 & H4).
  fold loop in H1, H3, H4.
  destruct (H4 i u Hi) as (wi & Hn & Ha).
  assert (Hl : length (attempts wi) = length (attempts w) + i).
  { rewrite Ha, length_app, firstn_length_le; [reflexivity|].
    apply Nat.lt_le_incl, nth_error_Some; congruence. }
  rewrite <- Hl in Hnet.
  split; [|split; [|exact H3]].
  - rewrite H1; simpl; rewrite Hn.
    fold fSU; rewrite (http_error_outcome u im simp t wi r Hnet Hs); reflexivity.
  - unfold render_result; simpl; rewrite <- !str_app_assoc; reflexivity.
Qed.

End Further.

(** ** Kept elements *)

Section Keep.

Variable commonmark : list Turndown.rule.
Variable keepReplacement : Turndown.node -> string.
Variable defaultReplacement : string -> Turndown.node -> string.
Variable isBlock : Turndown.node -> bool.
Variable escape : string -> string.

Let convert := Turndown.convert_node commonmark keepReplacement defaultReplacement
                 isBlock Turndown.is_blank escape.

(** [keep(['iframe', 'video', 'audio'])]: such an element is never blank
    (it is meaningful when blank) and the strikethrough rule does not take
    it, so unless a CommonMark rule matches it is rendered by the keep
    replacement, whatever its content, with its flanking white space
    outside; exactly by the keep replacement when its text has no leading
    or trailing white space. *)
Theorem kept_elements tag children parent_code prev next :
  In tag Turndown.keep_tags ->
  Turndown.find_rule commonmark (Turndown.Elem tag children) = None ->
  let n := Turndown.Elem tag children in
  let ws := Turndown.flanking isBlock prev next n in
  convert parent_code prev next n = (fst ws ++ keepReplacement n ++ snd ws)%string /\
  (trim (Turndown.text_content n) = Turndown.text_content n ->
   convert parent_code prev next n = keepReplacement n).
Proof.
  intros Hin Hcm n ws.
  assert (Heq : convert parent_code prev next n = (fst ws ++ keepReplacement n ++ snd ws)%string).
  { unfold convert, n, ws; cbn [Turndown.convert_node].
    assert (Hr : Turndown.for_node commonmark keepReplacement defaultReplacement
                   isBlock Turndown.is_blank (Turndown.Elem tag children)
                 = Turndown.mkRule (Turndown.filter_tags Turndown.keep_tags)
                     (fun _ n => keepReplacement n)).
    { unfold Turndown.for_node, Turndown.rules_array; cbn [Turndown.find_rule].
      destruct Hin as [<-|[<-|[<-|[]]]]; simpl; rewrite Hcm; reflexivity. }
    rewrite Hr; reflexivity. }
  split; [exact Heq|].
  intros Htr; rewrite Heq; unfold ws; rewrite (flanking_trimmed _ _ _ _ Htr).
  simpl; rewrite str_app_nil_r; reflexivity.
Qed.

End Keep.

(** ** Witnesses of the further properties *)

Lemma fetch_url_http_error_witness :
  serve r_not_found 0 ex_url 30000 = Got r_not_found /\
  fst (fetch_url (serve r_not_found) no_article (parses_as no_meta_doc) td_strip
         iso0 ex_url false true 30000 w0)
  = mkToolResult ("Error fetching " ++ ex_url ++ ": HTTP " ++ string_of_Z (status r_not_found)
                  ++ ": " ++ statusText r_not_found) true.
Proof.
  split; [reflexivity|].
  apply fetch_url_http_error with (r := r_not_found); [reflexivity|simpl; lia].
Defined.

Lemma fetchSingleUrl_transport_errors_witness :
  fst (fetchSingleUrl no_answer no_article (parses_as no_meta_doc) td_strip
         iso0 ex_url false true 30000 w0) = Failure "No response received from server" /\
  fst (fetchSingleUrl bad_url_config no_article (parses_as no_meta_doc) td_strip
         iso0 ex_url false true 30000 w0) = Failure "Unsupported protocol ftp:".
Proof.
  split.
  - apply (proj1 (fetchSingleUrl_transport_errors no_answer no_article
             (parses_as no_meta_doc) td_strip iso0 ex_url false true 30000 w0
             "timeout of 30000ms exceeded")); reflexivity.
  - apply (proj2 (fetchSingleUrl_transport_errors bad_url_config no_article
             (parses_as no_meta_doc) td_strip iso0 ex_url false true 30000 w0
             "Unsupported protocol ftp:")); reflexivity.
Defined.

Lemma extract_article_shape_witness :
  extractReadableContent one_article hello_page ex_url
  = Some (mkArticle "Post" "<p>Body</p>" (Some "Ann")) /\
  truthy "Post" = true /\ truthy "<p>Body</p>" = true /\
  (Some "Ann" = None \/ exists b, Some "Ann" = Some b /\ truthy b = true).
Proof.
  split; [reflexivity|].
  apply (extract_article_shape one_article hello_page ex_url
           (mkArticle "Post" "<p>Body</p>" (Some "Ann"))); reflexivity.
Defined.

Lemma article_metadata_seed_witness :
  exists m,
    fst (fetchSingleUrl (serve r_hello) one_article (parses_as hello_doc) td_strip
           iso0 ex_url true true 30000 w0)
    = Success (format_content true m (strip_tags "<p>Body</p>")) /\
    obj_get m "title" = Some "Post" /\
    obj_get m "author" = match last_value "author" (doc_metas hello_doc) with
                         | Some v => Some v
                         | None => Some "Ann"
                         end.
Proof.
  apply (article_metadata_seed (serve r_hello) one_article (parses_as hello_doc) td_strip
           iso0 ex_url 30000 w0 r_hello (mkArticle "Post" "<p>Body</p>" (Some "Ann"))
           (strip_tags "<p>Body</p>") hello_doc); try reflexivity; simpl; lia.
Defined.

Lemma title_first_line_witness :
  trim (nbsp ++ "Hi" ++ nbsp) = "Hi" /\
  exists rest,
    fst (fetchSingleUrl (serve r_hello) no_article (parses_as nbsp_title_doc) td_strip
           iso0 ex_url true false 30000 w0)
    = Success ("---" ++ nl ++ "title: " ++ trim (nbsp ++ "Hi" ++ nbsp) ++ nl ++ rest).
Proof.
  split; [reflexivity|].
  apply (title_first_line (serve r_hello) no_article (parses_as nbsp_title_doc) td_strip
           iso0 ex_url false 30000 w0 r_hello nbsp_title_doc (nbsp ++ "Hi" ++ nbsp)
           (strip_tags hello_page));
    first [reflexivity | (left; reflexivity) | (simpl; lia)].
Defined.

Lemma batch_http_error_witness :
  nth_error [ex_url; "https://example.com/b"] 1 = Some "https://example.com/b" /\
  nth_error (fst (fetch_loop (serve r_not_found) no_article (parses_as no_meta_doc)
                    td_strip iso0 [ex_url; "https://example.com/b"] false true 30000 [] w0)) 1
  = Some ("https://example.com/b",
          Failure ("HTTP " ++ string_of_Z (status r_not_found) ++ ": " ++ statusText r_not_found)).
Proof.
  split; [reflexivity|].
  apply (batch_http_error (serve r_not_found) no_article (parses_as no_meta_doc) td_strip
           iso0 [ex_url; "https://example.com/b"] false true 30000 w0 1
           "https://example.com/b" r_not_found); [reflexivity|reflexivity|simpl; lia].
Defined.

Lemma kept_elements_witness :
  Turndown.convert_node [] (fun _ => "<iframe src='x'></iframe>") (fun content _ => content)
    (fun _ => false) Turndown.is_blank Turndown.markdown_escape false None None
    (Turndown.Elem "iframe" [Turndown.Text "x "])
  = "<iframe src='x'></iframe> ".
Proof.
  exact (eq_trans
    (proj1 (kept_elements [] (fun _ => "<iframe src='x'></iframe>") (fun content _ => content)
       (fun _ => false) Turndown.markdown_escape "iframe" [Turndown.Text "x "] false None None
       (or_introl eq_refl) eq_refl))
    eq_refl).
Defined.
